(** * ObjectMonitor: ownership and metadata state

    A shallow embedding of the inline accessors of HotSpot's inflated
    monitor, [src/hotspot/share/runtime/objectMonitor.hpp] and
    [objectMonitor.inline.hpp], and the properties of the ownership and
    metadata state machine that follow from them.

    Conventions.
    - A pointer ([void*], [ObjectWaiter*], [BasicLock*], [oop]) and a
      [uintptr_t] are the unsigned value of a 64-bit word; [int],
      [intx], [intptr_t] and [int64_t] are signed values.  Conversions
      between them are written out ([to_intptr_t], [to_uintptr_t],
      [to_int]).
    - A member function is a computation in the monad [M]: it reads and
      writes the machine state [VM] and either returns a value or dies
      on an assertion ([Fatal]).
    - [ASSERT] is the preprocessor symbol of the same name: the
      [assert] macro and the [#ifdef ASSERT] blocks are compiled in
      only when it is defined.
    - Logging ([log_trace]) is not part of the state. *)

From Stdlib Require Import ZArith Lia Bool List String.
Import ListNotations.
Open Scope Z_scope.

(** ** Machine integers *)

Definition wrap_unsigned (w v : Z) : Z := v mod 2 ^ w.
Definition wrap_signed (w v : Z) : Z := (v + 2 ^ (w - 1)) mod 2 ^ w - 2 ^ (w - 1).

(** The casts to [uintptr_t] and to a pointer type. *)
Definition to_uintptr_t (v : Z) : Z := wrap_unsigned 64 v.
(** The casts to [intptr_t] and to [int64_t]. *)
Definition to_intptr_t (v : Z) : Z := wrap_signed 64 v.
(** The cast to [int]. *)
Definition to_int (v : Z) : Z := wrap_signed 32 v.

Definition INT_MAX : Z := 2 ^ 31 - 1.
Definition INT_MIN : Z := - 2 ^ 31.

Definition is_uintptr_t (v : Z) : Prop := 0 <= v < 2 ^ 64.
Definition is_intptr_t (v : Z) : Prop := - 2 ^ 63 <= v < 2 ^ 63.
Definition is_int (v : Z) : Prop := INT_MIN <= v <= INT_MAX.

Definition address := Z.
Definition oop := Z.
Definition nullptr : Z := 0.

(** ** Collaborators *)

(** Modelled from the spec: the [markWord] class of [oops/markWord.hpp],
    a wrapper around one [uintptr_t]. *)
Record markWord := { value : Z }.

(** Modelled from the spec: the [WeakHandle] class of
    [oops/weakHandle.hpp], "a weak, peekable handle type supporting is
    null, peek (may return no object)".  The handle is the address of a
    slot of weak storage; the collector clears the slot when the
    referent dies. *)
Record WeakHandle := { _obj : address }.

(** Modelled from the spec: the part of [JavaThread] the monitor
    consumes, "an owner-identity token type comparable for equality; a
    way to test does the calling context already hold this via the
    lightweight path": the lock id, the lock stack of lightweight
    locking and the bounds of the thread's stack, inside which the
    [BasicLock] records of legacy stack locking live. *)
Record JavaThread := {
  _lock_id : Z;
  _lock_stack : list oop;
  _stack_base : address;
  _stack_end : address }.

(** Modelled from the spec: the [LockingMode] flag of
    [runtime/globals.hpp] and the three values the sources name. *)
Inductive LockingModes := LM_MONITOR | LM_LEGACY | LM_LIGHTWEIGHT.

Definition LockingModes_eqb (a b : LockingModes) : bool :=
  match a, b with
  | LM_MONITOR, LM_MONITOR | LM_LEGACY, LM_LEGACY
  | LM_LIGHTWEIGHT, LM_LIGHTWEIGHT => true
  | _, _ => false
  end.

(** ** The monitor *)

Record ObjectMonitor := {
  _metadata : Z;
  _object : WeakHandle;
  _owner : address;
  _stack_locker : address;
  _previous_owner_tid : Z;
  _next_om : address;
  _recursions : Z;
  _EntryList : address;
  _cxq : address;
  _succ : address;
  _Responsible : address;
  _SpinDuration : Z;
  _contentions : Z;
  _WaitSet : address;
  _waiters : Z;
  _WaitSetLock : Z }.

Definition DEFLATER_MARKER_VALUE : Z := 2.
Definition DEFLATER_MARKER : address := DEFLATER_MARKER_VALUE.
Definition ANONYMOUS_OWNER : Z := 1.
Definition anon_owner_ptr : address := ANONYMOUS_OWNER.

(** The fields the inline accessors write, as lenses. *)
Inductive om_field := F_metadata | F_owner | F_stack_locker | F_next_om | F_contentions.

Definition field_get (f : om_field) (m : ObjectMonitor) : Z :=
  match f with
  | F_metadata => _metadata m
  | F_owner => _owner m
  | F_stack_locker => _stack_locker m
  | F_next_om => _next_om m
  | F_contentions => _contentions m
  end.

Definition field_set (f : om_field) (v : Z) (m : ObjectMonitor) : ObjectMonitor :=
  {| _metadata := match f with F_metadata => v | _ => _metadata m end;
     _object := _object m;
     _owner := match f with F_owner => v | _ => _owner m end;
     _stack_locker := match f with F_stack_locker => v | _ => _stack_locker m end;
     _previous_owner_tid := _previous_owner_tid m;
     _next_om := match f with F_next_om => v | _ => _next_om m end;
     _recursions := _recursions m;
     _EntryList := _EntryList m;
     _cxq := _cxq m;
     _succ := _succ m;
     _Responsible := _Responsible m;
     _SpinDuration := _SpinDuration m;
     _contentions := match f with F_contentions => v | _ => _contentions m end;
     _WaitSet := _WaitSet m;
     _waiters := _waiters m;
     _WaitSetLock := _WaitSetLock m |}.

(** ** Machine state *)

Inductive atomic_memory_order :=
| memory_order_relaxed | memory_order_release | memory_order_conservative.

(** One write to a field of the monitor, as [runtime/atomic.hpp] issues it. *)
Record mem_event := {
  ev_field : om_field;
  ev_value : Z;
  ev_order : atomic_memory_order }.

Record VM := {
  this : ObjectMonitor;
  (** [ThreadIdentifier::current()], the next thread id to hand out. *)
  ThreadIdentifier_current : Z;
  (** contents of the slots of weak storage, [nullptr] once cleared *)
  oop_storage : address -> oop;
  (** referents handed out by a strong (keep-alive) load *)
  kept_alive : list oop;
  (** writes to the monitor, most recent first *)
  mem_log : list mem_event }.


Definition write_field (f : om_field) (v : Z) (o : atomic_memory_order) (st : VM) : VM :=
  {| this := field_set f v (this st);
     ThreadIdentifier_current := ThreadIdentifier_current st;
     oop_storage := oop_storage st;
     kept_alive := kept_alive st;
     mem_log := {| ev_field := f; ev_value := v; ev_order := o |} :: mem_log st |}.

Definition keep_alive (o : oop) (st : VM) : VM :=
  {| this := this st;
     ThreadIdentifier_current := ThreadIdentifier_current st;
     oop_storage := oop_storage st;
     kept_alive := o :: kept_alive st;
     mem_log := mem_log st |}.

(** ** The monad of member functions *)

Inductive Result (A : Type) :=
| Ok (a : A)
| Fatal (msg : string).
Arguments Ok {A} a.
Arguments Fatal {A} msg.

Definition M (A : Type) : Type := VM -> Result (A * VM).

Definition ret {A} (a : A) : M A := fun st => Ok (a, st).

Definition bind {A B} (c : M A) (k : A -> M B) : M B :=
  fun st => match c st with
            | Ok (a, st') => k a st'
            | Fatal msg => Fatal msg
            end.

Declare Scope om_scope.
Delimit Scope om_scope with om.
Notation "x <- c ;; k" := (bind c (fun x => k))
  (at level 100, c at next level, right associativity) : om_scope.
Notation "c ;; k" := (bind c (fun _ => k))
  (at level 100, right associativity) : om_scope.
Open Scope om_scope.

Definition gets {A} (f : VM -> A) : M A := fun st => Ok (f st, st).
Definition modify (f : VM -> VM) : M unit := fun st => Ok (tt, f st).

(** ** [runtime/atomic.hpp] on the fields of the monitor *)

Definition Atomic_load (f : om_field) : M Z :=
  gets (fun st => field_get f (this st)).

Definition Atomic_store (f : om_field) (v : Z) : M unit :=
  modify (write_field f v memory_order_relaxed).

Definition Atomic_release_store (f : om_field) (v : Z) : M unit :=
  modify (write_field f v memory_order_release).

(** [Atomic::cmpxchg(dest, compare_value, exchange_value)]: returns the
    prior value, and writes only when it equals [compare_value]. *)
Definition Atomic_cmpxchg (f : om_field) (compare_value exchange_value : Z) : M Z :=
  fun st =>
    let prev := field_get f (this st) in
    if prev =? compare_value
    then Ok (prev, write_field f exchange_value memory_order_conservative st)
    else Ok (prev, st).

(** [Atomic::add] on an [int] field: returns the new value. *)
Definition Atomic_add_int (f : om_field) (add_value : Z) : M Z :=
  fun st =>
    let v := to_int (field_get f (this st) + add_value) in
    Ok (v, write_field f v memory_order_conservative st).

(** ** Collaborator operations *)

(** Modelled from the spec: [ThreadIdentifier::current()] of
    [runtime/threadIdentifier.hpp]. *)
Definition ThreadIdentifier__current : M Z := gets ThreadIdentifier_current.

(** Modelled from the spec: [JavaThread::lock_id()]. *)
Definition lock_id (thread : JavaThread) : Z := _lock_id thread.

(** Modelled from the spec: [LockStack::contains(oop)]. *)
Definition lock_stack_contains (thread : JavaThread) (o : oop) : bool :=
  existsb (Z.eqb o) (_lock_stack thread).

(** Modelled from the spec: [JavaThread::is_lock_owned(address)], the
    address lies in the thread's stack. *)
Definition is_lock_owned (thread : JavaThread) (adr : address) : bool :=
  (_stack_end thread <=? adr) && (adr <? _stack_base thread).

(** Modelled from the spec: [WeakHandle::is_null()]. *)
Definition WeakHandle_is_null (h : WeakHandle) : bool := _obj h =? nullptr.

(** Modelled from the spec: [WeakHandle::peek()], a load of the slot
    that does not keep the referent alive. *)
Definition WeakHandle_peek (h : WeakHandle) : M oop :=
  gets (fun st => oop_storage st (_obj h)).

(** Modelled from the spec: [WeakHandle::resolve()], a load of the slot
    that keeps the referent alive. *)
Definition WeakHandle_resolve (h : WeakHandle) : M oop :=
  o <- gets (fun st => oop_storage st (_obj h)) ;;
  modify (keep_alive o) ;;
  ret o.

(** ** Member functions *)

Section Members.

(** Build and run-time configuration, fixed for one VM. *)
Variable ASSERT : bool.
Variable UseObjectMonitorTable : bool.
Variable LockingMode : LockingModes.

(** Modelled from the spec: the [assert(p, msg)] macro of
    [utilities/debug.hpp], the "fatal assertion" of a contract
    violation.  Like the [#ifdef ASSERT] blocks of the sources it is
    compiled in under [ASSERT] only: there a false [p] stops the VM,
    elsewhere the macro expands to nothing and [p] is not evaluated. *)
Definition assert (p : M bool) (msg : string) : M unit :=
  if ASSERT
  then b <- p ;; if b : bool then ret tt else (fun _ => Fatal msg)
  else ret tt.

(** [#ifdef ASSERT ... #endif] *)
Definition ifdef_ASSERT (body : M unit) : M unit :=
  if ASSERT then body else ret tt.

(** [void* ObjectMonitor::owner_for(JavaThread* thread) const] *)
Definition owner_for (thread : JavaThread) : M address :=
  let tid := lock_id thread in
  assert (cur <- ThreadIdentifier__current ;;
          ret ((3 <=? tid) && (tid <? cur))) "must be reasonable" ;;
  ret (to_uintptr_t tid).

(** [uintptr_t ObjectMonitor::metadata() const] *)
Definition metadata : M Z := Atomic_load F_metadata.

(** [void ObjectMonitor::set_metadata(uintptr_t value)] *)
Definition set_metadata (v : Z) : M unit := Atomic_store F_metadata v.

(** [markWord ObjectMonitor::header() const] *)
Definition header : M markWord :=
  assert (ret (negb UseObjectMonitorTable))
         "Lightweight locking with OM table does not use header" ;;
  v <- metadata ;;
  ret {| value := v |}.

(** [void ObjectMonitor::set_header(markWord hdr)] *)
Definition set_header (hdr : markWord) : M unit :=
  assert (ret (negb UseObjectMonitorTable))
         "Lightweight locking with OM table does not use header" ;;
  set_metadata (value hdr).

(** [intptr_t ObjectMonitor::hash() const]: the metadata word read as a
    signed value. *)
Definition hash : M Z :=
  assert (ret UseObjectMonitorTable)
         "Only used by lightweight locking with OM table" ;;
  v <- metadata ;;
  ret (to_intptr_t v).

(** [void ObjectMonitor::set_hash(intptr_t hash)] *)
Definition set_hash (hash : Z) : M unit :=
  assert (ret UseObjectMonitorTable)
         "Only used by lightweight locking with OM table" ;;
  set_metadata (to_uintptr_t hash).

(** [int ObjectMonitor::waiters() const] *)
Definition waiters : M Z := gets (fun st => _waiters (this st)).

(** [void* ObjectMonitor::owner_raw() const] *)
Definition owner_raw : M address := Atomic_load F_owner.

(** [bool ObjectMonitor::has_owner() const] *)
Definition has_owner : M bool :=
  owner <- owner_raw ;;
  ret (negb (owner =? nullptr) && negb (owner =? DEFLATER_MARKER)).

(** [void* ObjectMonitor::owner() const]: null if [DEFLATER_MARKER] is
    observed. *)
Definition owner : M address :=
  owner <- owner_raw ;;
  ret (if negb (owner =? DEFLATER_MARKER) then owner else nullptr).

(** [BasicLock* ObjectMonitor::stack_locker() const] *)
Definition stack_locker : M address := Atomic_load F_stack_locker.


(** [bool is_owner(JavaThread* thread) const], that is
    [owner() == owner_for(thread)]. *)
Definition is_owner (thread : JavaThread) : M bool :=
  o <- owner ;;
  t <- owner_for thread ;;
  ret (o =? t).

(** [bool is_owner_anonymous() const], that is
    [owner_raw() == anon_owner_ptr()]. *)
Definition is_owner_anonymous : M bool :=
  o <- owner_raw ;;
  ret (o =? anon_owner_ptr).

(** [bool ObjectMonitor::is_stack_locker(JavaThread* current)]; [&&]
    evaluates its right operand only when the left one is true. *)
Definition is_stack_locker (current : JavaThread) : M bool :=
  anon <- is_owner_anonymous ;;
  if anon : bool
  then l <- stack_locker ;; ret (is_lock_owned current l)
  else ret false.

(** [bool ObjectMonitor::owner_is_DEFLATER_MARKER() const] *)
Definition owner_is_DEFLATER_MARKER : M bool :=
  o <- owner_raw ;;
  ret (o =? DEFLATER_MARKER).

(** [int ObjectMonitor::contentions() const] *)
Definition contentions : M Z := Atomic_load F_contentions.

(** [bool ObjectMonitor::is_being_async_deflated()] *)
Definition is_being_async_deflated : M bool :=
  c <- contentions ;;
  ret (c <? 0).

(** [void ObjectMonitor::add_to_contentions(int value)] *)
Definition add_to_contentions (v : Z) : M unit :=
  Atomic_add_int F_contentions v ;;
  ret tt.

(** [bool is_busy() const]: [ret_code] collects, by bitwise or, the
    waiter count, the two queue heads, the contentions when positive
    and the owner unless it is [DEFLATER_MARKER]. *)
Definition is_busy : M bool :=
  m <- gets this ;;
  let ret_code :=
    Z.lor (Z.lor (to_intptr_t (_waiters m)) (to_intptr_t (_cxq m)))
          (to_intptr_t (_EntryList m)) in
  cnts <- contentions ;;
  let ret_code :=
    if 0 <? cnts then Z.lor ret_code (to_intptr_t cnts) else ret_code in
  deflater <- owner_is_DEFLATER_MARKER ;;
  ret_code <- (if negb deflater
               then o <- owner_raw ;; ret (Z.lor ret_code (to_intptr_t o))
               else ret ret_code) ;;
  ret (negb (ret_code =? 0)).

(** [void ObjectMonitor::release_clear_owner(JavaThread* old_owner)]:
    clear the owner field; the current value must match. *)
Definition release_clear_owner (old_owner : JavaThread) : M unit :=
  old_value <- owner_for old_owner ;;
  ifdef_ASSERT
    (prev <- Atomic_load F_owner ;;
     assert (ret (prev =? old_value)) "unexpected prev owner") ;;
  Atomic_release_store F_owner nullptr.

(** [void ObjectMonitor::set_owner_from_raw(void* old_value, void* new_value)]:
    simply set the owner field; the current value must match
    [old_value]. *)
Definition set_owner_from_raw (old_value new_value : address) : M unit :=
  ifdef_ASSERT
    (prev <- Atomic_load F_owner ;;
     assert (cur <- ThreadIdentifier__current ;;
             ret (to_intptr_t prev <? cur)) "must be reasonable" ;;
     assert (ret (prev =? old_value)) "unexpected prev owner") ;;
  Atomic_store F_owner new_value.

(** [void ObjectMonitor::set_owner_from(void* old_value, JavaThread* current)] *)
Definition set_owner_from (old_value : address) (current : JavaThread) : M unit :=
  new_value <- owner_for current ;;
  set_owner_from_raw old_value new_value.


(** [void* ObjectMonitor::try_set_owner_from_raw(void* old_value, void* new_value)] *)
Definition try_set_owner_from_raw (old_value new_value : address) : M address :=
  assert (cur <- ThreadIdentifier__current ;;
          ret (to_intptr_t new_value <? cur)) "must be reasonable" ;;
  prev <- Atomic_cmpxchg F_owner old_value new_value ;;
  ret prev.

(** [void* ObjectMonitor::try_set_owner_from(void* old_value, JavaThread* current)] *)
Definition try_set_owner_from (old_value : address) (current : JavaThread) : M address :=
  new_value <- owner_for current ;;
  try_set_owner_from_raw old_value new_value.

(** [void set_owner_anonymous()] *)
Definition set_owner_anonymous : M unit :=
  set_owner_from_raw nullptr anon_owner_ptr.


(** [ObjectMonitor* ObjectMonitor::next_om() const] *)
Definition next_om : M address := Atomic_load F_next_om.

(** [void ObjectMonitor::set_next_om(ObjectMonitor* new_value)] *)
Definition set_next_om (new_value : address) : M unit :=
  Atomic_store F_next_om new_value.

(** [ObjectMonitorContentionMark]: the constructor and the destructor
    of the RAII object, which holds nothing but its monitor. *)
Inductive ObjectMonitorContentionMark := ContentionMark.

Definition ObjectMonitorContentionMark_ctor : M ObjectMonitorContentionMark :=
  add_to_contentions 1 ;;
  ret ContentionMark.

Definition ObjectMonitorContentionMark_dtor (mark : ObjectMonitorContentionMark) : M unit :=
  add_to_contentions (-1).

(** [oop ObjectMonitor::object_peek() const] *)
Definition object_peek : M oop :=
  h <- gets (fun st => _object (this st)) ;;
  if WeakHandle_is_null h then ret nullptr else WeakHandle_peek h.

(** [bool ObjectMonitor::object_is_dead() const] *)
Definition object_is_dead : M bool :=
  o <- object_peek ;;
  ret (o =? nullptr).

(** [bool ObjectMonitor::object_refers_to(oop obj) const] *)
Definition object_refers_to (obj : oop) : M bool :=
  h <- gets (fun st => _object (this st)) ;;
  if WeakHandle_is_null h
  then ret false
  else o <- WeakHandle_peek h ;; ret (o =? obj).

(** Modelled from the spec: [ObjectMonitor::object()], defined in
    [objectMonitor.cpp]: the strong counterpart of [object_peek]. *)
Definition object : M oop :=
  h <- gets (fun st => _object (this st)) ;;
  WeakHandle_resolve h.

(** [bool ObjectMonitor::is_entered(JavaThread* current) const]; the
    [return false] after the conditional is never reached. *)
Definition is_entered (current : JavaThread) : M bool :=
  anon <- is_owner_anonymous ;;
  if anon : bool
  then
    if LockingModes_eqb LockingMode LM_LIGHTWEIGHT
    then o <- object ;; ret (lock_stack_contains current o)
    else l <- stack_locker ;; ret (is_lock_owned current l)
  else is_owner current.

End Members.

(** ** Scoped use of the contention mark *)

(** [depth] scopes nested one inside the other, each holding an
    [ObjectMonitorContentionMark] on the monitor: the marks are
    constructed on the way in and destroyed, innermost first, on the
    way out. *)
Fixpoint nested_contention_marks (depth : nat) : M unit :=
  match depth with
  | O => ret tt
  | S depth' =>
      mark <- ObjectMonitorContentionMark_ctor ;;
      nested_contention_marks depth' ;;
      ObjectMonitorContentionMark_dtor mark
  end.

(** ** Well-formed states and example states *)

(** The fields hold values of their C++ types. *)
Definition monitor_ok (m : ObjectMonitor) : Prop :=
  is_uintptr_t (_metadata m) /\ is_uintptr_t (_owner m) /\
  is_uintptr_t (_cxq m) /\ is_uintptr_t (_EntryList m) /\
  is_int (_waiters m) /\ is_int (_contentions m).

(** [thread] carries a lock id that [ThreadIdentifier] has handed out:
    the precondition [owner_for] asserts. *)
Definition thread_ok (thread : JavaThread) (st : VM) : Prop :=
  3 <= lock_id thread < ThreadIdentifier_current st /\
  is_intptr_t (ThreadIdentifier_current st).

(** [v] passes the "must be reasonable" assertions on owner values. *)
Definition reasonable (v : address) (st : VM) : Prop :=
  to_intptr_t v < ThreadIdentifier_current st.

(** What a peek through the monitor's handle sees. *)
Definition peeked (st : VM) : oop :=
  if WeakHandle_is_null (_object (this st))
  then nullptr
  else oop_storage st (_obj (_object (this st))).

(** A freshly inflated monitor, with no owner and nobody queued. *)
Definition idle_monitor : ObjectMonitor :=
  {| _metadata := 1; _object := {| _obj := 4096 |};
     _owner := nullptr; _stack_locker := nullptr; _previous_owner_tid := 0;
     _next_om := nullptr; _recursions := 0; _EntryList := nullptr;
     _cxq := nullptr; _succ := nullptr; _Responsible := nullptr;
     _SpinDuration := 0; _contentions := 0; _WaitSet := nullptr;
     _waiters := 0; _WaitSetLock := 0 |}.

(** A VM that has handed out the thread ids 3 to 99 and whose weak
    storage holds the object 8192 in the slot 4096. *)
Definition vm_of (m : ObjectMonitor) : VM :=
  {| this := m; ThreadIdentifier_current := 100;
     oop_storage := fun slot => if slot =? 4096 then 8192 else nullptr;
     kept_alive := []; mem_log := [] |}.

Definition idle_vm : VM := vm_of idle_monitor.

(** The idle monitor after the collector has cleared the weak storage. *)
Definition collected_vm : VM :=
  {| this := idle_monitor; ThreadIdentifier_current := 100;
     oop_storage := fun _ => nullptr; kept_alive := []; mem_log := [] |}.

(** The monitor while the deflater holds it: contentions made negative. *)
Definition deflating_vm : VM := vm_of (field_set F_contentions INT_MIN idle_monitor).

(** The monitor once the deflater has installed its marker. *)
Definition deflated_vm : VM := vm_of (field_set F_owner DEFLATER_MARKER idle_monitor).

(** The monitor owned by the thread with lock id 5. *)
Definition owned_vm : VM := vm_of (field_set F_owner 5 idle_monitor).

(** The monitor of an object that thread 5 has locked on the lightweight
    path: anonymous owner, lock record at 65000 in the stack of thread 5. *)
Definition anonymous_vm : VM :=
  vm_of (field_set F_stack_locker 65000 (field_set F_owner anon_owner_ptr idle_monitor)).

(** The monitor with as many contentions as the counter can hold. *)
Definition saturated_vm : VM := vm_of (field_set F_contentions INT_MAX idle_monitor).

(** [m'] is [m] but for the contention counter. *)
Definition same_but_contentions (m m' : ObjectMonitor) : Prop :=
  _metadata m' = _metadata m /\ _object m' = _object m /\
  _owner m' = _owner m /\ _stack_locker m' = _stack_locker m /\
  _previous_owner_tid m' = _previous_owner_tid m /\ _next_om m' = _next_om m /\
  _recursions m' = _recursions m /\ _EntryList m' = _EntryList m /\
  _cxq m' = _cxq m /\ _succ m' = _succ m /\ _Responsible m' = _Responsible m /\
  _SpinDuration m' = _SpinDuration m /\ _WaitSet m' = _WaitSet m /\
  _waiters m' = _waiters m /\ _WaitSetLock m' = _WaitSetLock m.

Definition thread5 : JavaThread :=
  {| _lock_id := 5; _lock_stack := [8192]; _stack_base := 70000; _stack_end := 60000 |}.

Definition thread7 : JavaThread :=
  {| _lock_id := 7; _lock_stack := []; _stack_base := 90000; _stack_end := 80000 |}.

(** A thread whose lock id is one of the reserved encodings. *)
Definition thread2 : JavaThread :=
  {| _lock_id := 2; _lock_stack := []; _stack_base := 50000; _stack_end := 40000 |}.

(** ** The accessors on the example states *)

Example is_busy_owned : is_busy owned_vm = Ok (true, owned_vm).
Proof. reflexivity. Qed.

Example is_busy_deflated : is_busy deflated_vm = Ok (false, deflated_vm).
Proof. reflexivity. Qed.

Example has_owner_anonymous : has_owner anonymous_vm = Ok (true, anonymous_vm).
Proof. reflexivity. Qed.

Example owner_for_thread5 : owner_for true thread5 idle_vm = Ok (5, idle_vm).
Proof. reflexivity. Qed.

Example owner_for_reserved_id :
  owner_for true {| _lock_id := 2; _lock_stack := []; _stack_base := 0; _stack_end := 0 |}
            idle_vm
  = Fatal "must be reasonable".
Proof. reflexivity. Qed.

Example is_entered_owner : is_entered true LM_LIGHTWEIGHT thread5 owned_vm = Ok (true, owned_vm).
Proof. reflexivity. Qed.

Example is_entered_other : is_entered true LM_LIGHTWEIGHT thread7 owned_vm = Ok (false, owned_vm).
Proof. reflexivity. Qed.

Example set_owner_anonymous_idle :
  set_owner_anonymous true idle_vm
  = Ok (tt, write_field F_owner anon_owner_ptr memory_order_relaxed idle_vm).
Proof. reflexivity. Qed.

Example object_is_dead_collected : object_is_dead collected_vm = Ok (true, collected_vm).
Proof. reflexivity. Qed.

Example object_refers_to_live : object_refers_to 8192 idle_vm = Ok (true, idle_vm).
Proof. reflexivity. Qed.

(** ** Machine integers: facts *)

Ltac Zify.zify_post_hook ::= Z.to_euclidean_division_equations.

Lemma to_intptr_t_of_intptr (v : Z) : is_intptr_t v -> to_intptr_t v = v.
Proof.
  unfold is_intptr_t, to_intptr_t, wrap_signed.
  change (2 ^ (64 - 1)) with 9223372036854775808.
  change (2 ^ 63) with 9223372036854775808.
  change (2 ^ 64) with 18446744073709551616. lia.
Qed.

Lemma to_intptr_t_of_int (v : Z) : is_int v -> to_intptr_t v = v.
Proof.
  intros H. apply to_intptr_t_of_intptr.
  unfold is_int, INT_MIN, INT_MAX, is_intptr_t in *.
  change (2 ^ 31) with 2147483648 in H.
  change (2 ^ 63) with 9223372036854775808. lia.
Qed.

Lemma to_intptr_t_zero_iff (v : Z) : is_uintptr_t v -> to_intptr_t v = 0 <-> v = 0.
Proof.
  unfold is_uintptr_t, to_intptr_t, wrap_signed.
  change (2 ^ (64 - 1)) with 9223372036854775808.
  change (2 ^ 64) with 18446744073709551616. lia.
Qed.

Lemma to_uintptr_t_of_uintptr (v : Z) : is_uintptr_t v -> to_uintptr_t v = v.
Proof.
  unfold is_uintptr_t, to_uintptr_t, wrap_unsigned.
  change (2 ^ 64) with 18446744073709551616. lia.
Qed.

Lemma to_intptr_t_to_uintptr_t (v : Z) : is_intptr_t v -> to_intptr_t (to_uintptr_t v) = v.
Proof.
  unfold is_intptr_t, to_intptr_t, to_uintptr_t, wrap_signed, wrap_unsigned.
  change (2 ^ (64 - 1)) with 9223372036854775808.
  change (2 ^ 63) with 9223372036854775808.
  change (2 ^ 64) with 18446744073709551616. lia.
Qed.

(** ** Deflation candidates: [is_busy] *)

Lemma lor_zero_iff (a b : Z) : Z.lor a b = 0 <-> a = 0 /\ b = 0.
Proof. apply Z.lor_eq_0_iff. Qed.

(** [is_busy] is a read of the monitor: it returns the disjunction of
    its fields and leaves the state alone. *)
Lemma is_busy_reads (st : VM) :
  exists b, is_busy st = Ok (b, st).
Proof.
  unfold is_busy, bind, gets, ret, contentions, owner_is_DEFLATER_MARKER,
    owner_raw, Atomic_load; cbn.
  destruct (_owner (this st) =? DEFLATER_MARKER); cbn; eauto.
Qed.

(** C1, as the code has it: [is_busy()] returns false exactly when the
    owner field is null or [DEFLATER_MARKER], [_cxq] and [_EntryList] are
    empty, [_waiters] is zero and [contentions()] is not positive (zero,
    or negative while the monitor is being deflated); in every other
    state it returns true. *)
Theorem is_busy_false_iff (st : VM) :
  monitor_ok (this st) ->
  (is_busy st = Ok (false, st) <->
     (_owner (this st) = nullptr \/ _owner (this st) = DEFLATER_MARKER) /\
     _cxq (this st) = nullptr /\ _EntryList (this st) = nullptr /\
     _waiters (this st) = 0 /\ _contentions (this st) <= 0) /\
  (is_busy st = Ok (true, st) <->
     ~ ((_owner (this st) = nullptr \/ _owner (this st) = DEFLATER_MARKER) /\
        _cxq (this st) = nullptr /\ _EntryList (this st) = nullptr /\
        _waiters (this st) = 0 /\ _contentions (this st) <= 0)).
Proof.
  intros (_ & Ho & Hc & He & Hw & Hn).
  assert (Hfalse : is_busy st = Ok (false, st) <->
     (_owner (this st) = nullptr \/ _owner (this st) = DEFLATER_MARKER) /\
     _cxq (this st) = nullptr /\ _EntryList (this st) = nullptr /\
     _waiters (this st) = 0 /\ _contentions (this st) <= 0).
  { unfold is_busy, bind, gets, ret, contentions, owner_is_DEFLATER_MARKER,
      owner_raw, Atomic_load; cbn.
    unfold DEFLATER_MARKER, DEFLATER_MARKER_VALUE, nullptr.
    pose proof (to_intptr_t_zero_iff _ Ho) as Zo.
    pose proof (to_intptr_t_zero_iff _ Hc) as Zc.
    pose proof (to_intptr_t_zero_iff _ He) as Ze.
    rewrite (to_intptr_t_of_int _ Hw).
    rewrite (to_intptr_t_of_int _ Hn).
    destruct (Z.eqb_spec (_owner (this st)) 2) as [E2 | N2];
      destruct (Z.ltb_spec 0 (_contentions (this st))) as [Pc | Pc]; cbn;
      match goal with
      | |- Ok (negb (?r =? 0), _) = _ <-> _ =>
          destruct (Z.eqb_spec r 0) as [R | R]; cbn;
          rewrite ?lor_zero_iff in R
      end;
      split; intros H; try discriminate; try reflexivity;
      try (exfalso; apply R; clear R); intuition (try lia). }
  split; [exact Hfalse |].
  destruct (is_busy_reads st) as [[|] Hb]; rewrite Hb in *.
  - split; [intros _ H | reflexivity].
    apply Hfalse in H. discriminate.
  - split; [discriminate | intros H].
    exfalso. apply H, Hfalse. reflexivity.
Qed.

(** Closed range conditions on concrete values. *)
Ltac by_computation :=
  repeat split; vm_compute; solve [reflexivity | intro; discriminate].

Lemma is_busy_false_iff_witness :
  monitor_ok (this deflating_vm) /\
  is_busy deflating_vm = Ok (false, deflating_vm).
Proof.
  assert (H : monitor_ok (this deflating_vm)) by by_computation.
  split; [exact H |].
  apply (proj1 (is_busy_false_iff deflating_vm H)).
  cbn. repeat split; try (left; reflexivity); try reflexivity.
  intro; discriminate.
Defined.

(** C1 as stated, with "the contention count is zero", fails on the
    monitor a deflater has marked: its contentions are negative and it
    is not busy. *)
Lemma is_busy_negative_contentions :
  monitor_ok (this deflating_vm) /\
  ~ (is_busy deflating_vm = Ok (false, deflating_vm) <->
       (_owner (this deflating_vm) = nullptr \/
        _owner (this deflating_vm) = DEFLATER_MARKER) /\
       _cxq (this deflating_vm) = nullptr /\
       _EntryList (this deflating_vm) = nullptr /\
       _waiters (this deflating_vm) = 0 /\
       _contentions (this deflating_vm) = 0).
Proof.
  split; [by_computation |].
  intros [H _].
  assert (E : is_busy deflating_vm = Ok (false, deflating_vm)) by reflexivity.
  apply H in E. destruct E as (_ & _ & _ & _ & E). discriminate E.
Qed.

(** ** Assertions and owner tokens *)

Lemma assert_holds (ASSERT : bool) (p : M bool) (msg : string) (st : VM) :
  p st = Ok (true, st) -> assert ASSERT p msg st = Ok (tt, st).
Proof.
  intros H. unfold assert, bind, ret. destruct ASSERT; [rewrite H |]; reflexivity.
Qed.

Lemma assert_fails (p : M bool) (msg : string) (st : VM) :
  p st = Ok (false, st) -> assert true p msg st = Fatal msg.
Proof.
  intros H. unfold assert, bind. rewrite H. reflexivity.
Qed.

Lemma assert_compiled_out (p : M bool) (msg : string) (st : VM) :
  assert false p msg st = Ok (tt, st).
Proof. reflexivity. Qed.

Lemma thread_ok_token (thread : JavaThread) (st : VM) :
  thread_ok thread st ->
  to_uintptr_t (lock_id thread) = lock_id thread /\
  to_intptr_t (lock_id thread) = lock_id thread.
Proof.
  intros [H1 H2]. unfold is_intptr_t in H2.
  change (2 ^ 63) with 9223372036854775808 in H2.
  split.
  - apply to_uintptr_t_of_uintptr. unfold is_uintptr_t.
    change (2 ^ 64) with 18446744073709551616. lia.
  - apply to_intptr_t_of_intptr. unfold is_intptr_t.
    change (2 ^ 63) with 9223372036854775808. lia.
Qed.

(** A thread that satisfies the asserted precondition gets its lock id
    as token, in either build. *)
Lemma owner_for_thread_ok (ASSERT : bool) (thread : JavaThread) (st : VM) :
  thread_ok thread st ->
  owner_for ASSERT thread st = Ok (lock_id thread, st).
Proof.
  intros H. destruct (thread_ok_token _ _ H) as [E _]. destruct H as [H _].
  unfold owner_for, bind.
  rewrite assert_holds.
  - unfold ret. rewrite E. reflexivity.
  - unfold bind, ThreadIdentifier__current, gets, ret.
    replace (3 <=? lock_id thread) with true by (symmetry; apply Z.leb_le; lia).
    replace (lock_id thread <? ThreadIdentifier_current st) with true
      by (symmetry; apply Z.ltb_lt; lia).
    reflexivity.
Qed.

(** Whatever [owner_for] returns under [ASSERT], or for a thread that
    meets the asserted condition, is at least 3. *)
Lemma owner_for_returns_ge_3
    (ASSERT : bool) (thread : JavaThread) (st st' : VM) (v : address) :
  is_intptr_t (lock_id thread) ->
  ASSERT = true \/ thread_ok thread st ->
  owner_for ASSERT thread st = Ok (v, st') ->
  3 <= v /\ st' = st.
Proof.
  intros Ht [-> | Hc] E.
  - unfold owner_for, assert, bind, ThreadIdentifier__current, gets, ret in E;
      cbn in E.
    destruct (Z.leb_spec 3 (lock_id thread)) as [L | L]; cbn in E;
      [| discriminate E].
    destruct (lock_id thread <? ThreadIdentifier_current st); [| discriminate E].
    injection E as <- <-. split; [| reflexivity].
    rewrite to_uintptr_t_of_uintptr; [exact L |].
    unfold is_intptr_t in Ht. unfold is_uintptr_t.
    change (2 ^ 63) with 9223372036854775808 in Ht.
    change (2 ^ 64) with 18446744073709551616. lia.
  - rewrite (owner_for_thread_ok ASSERT thread st Hc) in E.
    injection E as <- <-. destruct Hc as [[L _] _]. split; [exact L | reflexivity].
Qed.

(** ** The owner field as seen through [owner], [has_owner], [is_owner] *)



(** ** Transitions of the owner field *)

Lemma reasonable_check (v : address) (st : VM) :
  reasonable v st ->
  (cur <- ThreadIdentifier__current ;; ret (to_intptr_t v <? cur)) st = Ok (true, st).
Proof.
  unfold reasonable, bind, ThreadIdentifier__current, gets, ret. intros H.
  apply Z.ltb_lt in H. rewrite H. reflexivity.
Qed.

Lemma assert_reasonable (ASSERT : bool) (v : address) (msg : string) (st : VM) :
  ASSERT = false \/ reasonable v st ->
  assert ASSERT (cur <- ThreadIdentifier__current ;; ret (to_intptr_t v <? cur)) msg st
  = Ok (tt, st).
Proof.
  intros [-> | H]; [reflexivity |].
  apply assert_holds, reasonable_check, H.
Qed.

(** C3: [try_set_owner_from_raw(old_value, new_value)] is a
    compare-and-swap on the owner field: with [p] the prior value, it
    stores [new_value] when [p] equals [old_value] and leaves the whole
    state as it was otherwise, and it returns [p] in both cases.  The
    new value is one that passes the "must be reasonable" assertion,
    which only builds with [ASSERT] check. *)
Theorem try_set_owner_from_raw_cmpxchg
    (ASSERT : bool) (st : VM) (old_value new_value : address) :
  ASSERT = false \/ reasonable new_value st ->
  exists st',
    try_set_owner_from_raw ASSERT old_value new_value st
    = Ok (_owner (this st), st') /\
    (_owner (this st) = old_value ->
       st' = write_field F_owner new_value memory_order_conservative st /\
       _owner (this st') = new_value) /\
    (_owner (this st) <> old_value ->
       st' = st /\ _owner (this st') = _owner (this st)).
Proof.
  intros H. unfold try_set_owner_from_raw, bind.
  rewrite (assert_reasonable ASSERT new_value _ st H).
  unfold Atomic_cmpxchg, ret; cbn.
  destruct (Z.eqb_spec (_owner (this st)) old_value) as [E | E];
    eexists; (split; [reflexivity |]); split; intros E'; try contradiction;
    split; reflexivity.
Qed.

(** Thread 7 fails to take the monitor thread 5 owns, and takes the
    idle one. *)
Lemma try_set_owner_from_raw_cmpxchg_witness :
  reasonable 7 owned_vm /\
  try_set_owner_from_raw true nullptr 7 owned_vm = Ok (5, owned_vm) /\
  try_set_owner_from_raw true nullptr 7 idle_vm
  = Ok (nullptr, write_field F_owner 7 memory_order_conservative idle_vm).
Proof.
  assert (H : reasonable 7 owned_vm) by by_computation.
  assert (H' : reasonable 7 idle_vm) by by_computation.
  split; [exact H |]. split.
  - destruct (try_set_owner_from_raw_cmpxchg true owned_vm nullptr 7 (or_intror H))
      as (st' & E & _ & N).
    destruct N as [-> _]; [discriminate | exact E].
  - destruct (try_set_owner_from_raw_cmpxchg true idle_vm nullptr 7 (or_intror H'))
      as (st' & E & Y & _).
    destruct Y as [-> _]; [reflexivity | exact E].
Defined.

(** The guarded stores, without [ASSERT]: the check is compiled out and
    the store is unconditional. *)
Lemma set_owner_from_raw_unchecked (st : VM) (old_value new_value : address) :
  set_owner_from_raw false old_value new_value st
  = Ok (tt, write_field F_owner new_value memory_order_relaxed st).
Proof. reflexivity. Qed.

Lemma release_clear_owner_unchecked (st : VM) (old_owner : JavaThread) :
  release_clear_owner false old_owner st
  = Ok (tt, write_field F_owner nullptr memory_order_release st).
Proof. reflexivity. Qed.

(** C4, as the code has it.  In a build with [ASSERT],
    [set_owner_from_raw(old_value, new_value)] and
    [release_clear_owner(old_owner)] stop on a fatal assertion when the
    owner field differs from the expected prior value.  When the caller
    supplies the true prior value, [set_owner_from_raw] stores
    [new_value] and [release_clear_owner] stores null with release
    ordering.  In a build without [ASSERT] no check is made and the
    store happens whatever the owner field holds. *)
Theorem guarded_owner_stores
    (ASSERT : bool) (st : VM) (old_value new_value : address) (old_owner : JavaThread) :
  (ASSERT = true -> _owner (this st) <> old_value ->
     exists msg, set_owner_from_raw ASSERT old_value new_value st = Fatal msg) /\
  (_owner (this st) = old_value -> ASSERT = false \/ reasonable old_value st ->
     set_owner_from_raw ASSERT old_value new_value st
     = Ok (tt, write_field F_owner new_value memory_order_relaxed st)) /\
  (ASSERT = true -> _owner (this st) <> to_uintptr_t (lock_id old_owner) ->
     exists msg, release_clear_owner ASSERT old_owner st = Fatal msg) /\
  (thread_ok old_owner st -> _owner (this st) = lock_id old_owner ->
     release_clear_owner ASSERT old_owner st
     = Ok (tt, write_field F_owner nullptr memory_order_release st)) /\
  (ASSERT = false ->
     set_owner_from_raw ASSERT old_value new_value st
     = Ok (tt, write_field F_owner new_value memory_order_relaxed st) /\
     release_clear_owner ASSERT old_owner st
     = Ok (tt, write_field F_owner nullptr memory_order_release st)).
Proof.
  repeat apply conj.
  - intros -> N.
    unfold set_owner_from_raw, ifdef_ASSERT, assert, bind, Atomic_load,
      ThreadIdentifier__current, gets, ret; cbn.
    destruct (to_intptr_t (_owner (this st)) <? ThreadIdentifier_current st);
      [| eauto].
    destruct (Z.eqb_spec (_owner (this st)) old_value); [contradiction | eauto].
  - intros E H. destruct ASSERT; [| reflexivity].
    destruct H as [H | H]; [discriminate |].
    unfold reasonable in H. apply Z.ltb_lt in H.
    unfold set_owner_from_raw, ifdef_ASSERT, assert, bind, Atomic_load,
      ThreadIdentifier__current, gets, ret; cbn.
    rewrite E, H, Z.eqb_refl. reflexivity.
  - intros -> N.
    unfold release_clear_owner, owner_for, ifdef_ASSERT, assert, bind, Atomic_load,
      ThreadIdentifier__current, gets, ret; cbn.
    destruct ((3 <=? lock_id old_owner)
              && (lock_id old_owner <? ThreadIdentifier_current st)); [| eauto].
    destruct (Z.eqb_spec (_owner (this st)) (to_uintptr_t (lock_id old_owner)));
      [contradiction | eauto].
  - intros H E. unfold release_clear_owner, bind at 1.
    rewrite (owner_for_thread_ok ASSERT old_owner st H).
    destruct ASSERT; [| reflexivity].
    unfold ifdef_ASSERT, assert, bind, Atomic_load, gets, ret; cbn.
    rewrite E, Z.eqb_refl. reflexivity.
  - intros ->. split; reflexivity.
Qed.

(** Thread 5 hands over and releases the monitor it owns. *)
Lemma guarded_owner_stores_witness :
  (thread_ok thread5 owned_vm /\ reasonable 5 owned_vm) /\
  (exists msg, set_owner_from_raw true 7 9 owned_vm = Fatal msg) /\
  set_owner_from_raw true 5 9 owned_vm
  = Ok (tt, write_field F_owner 9 memory_order_relaxed owned_vm) /\
  (exists msg, release_clear_owner true thread7 owned_vm = Fatal msg) /\
  release_clear_owner true thread5 owned_vm
  = Ok (tt, write_field F_owner nullptr memory_order_release owned_vm).
Proof.
  assert (H : thread_ok thread5 owned_vm) by by_computation.
  assert (R : reasonable 5 owned_vm) by by_computation.
  assert (N7 : _owner (this owned_vm) <> 7) by (intro; discriminate).
  destruct (guarded_owner_stores true owned_vm 7 9 thread7) as (F1 & _ & F2 & _).
  destruct (guarded_owner_stores true owned_vm 5 9 thread5) as (_ & S1 & _ & S2 & _).
  exact (conj (conj H R)
          (conj (F1 eq_refl N7)
             (conj (S1 eq_refl (or_intror R))
                (conj (F2 eq_refl N7) (S2 H eq_refl))))).
Defined.

(** C4 as stated fails in a build without [ASSERT]: thread 5 owns the
    monitor, yet a store that expects the owner 7, and a release by
    thread 7, go through. *)
Lemma guarded_owner_stores_unchecked_without_ASSERT :
  _owner (this owned_vm) <> 7 /\
  _owner (this owned_vm) <> lock_id thread7 /\
  ~ (exists msg, set_owner_from_raw false 7 9 owned_vm = Fatal msg) /\
  ~ (exists msg, release_clear_owner false thread7 owned_vm = Fatal msg) /\
  set_owner_from_raw false 7 9 owned_vm
  = Ok (tt, write_field F_owner 9 memory_order_relaxed owned_vm) /\
  release_clear_owner false thread7 owned_vm
  = Ok (tt, write_field F_owner nullptr memory_order_release owned_vm).
Proof.
  repeat apply conj; try reflexivity;
    try (intro; discriminate); intros [msg H]; discriminate H.
Qed.

(** ** The metadata word *)

Lemma metadata_after_set (st : VM) (v : Z) :
  exists st', set_metadata v st = Ok (tt, st') /\ metadata st' = Ok (v, st').
Proof. eexists; split; reflexivity. Qed.

(** C6, as the code has it.  Without the object-monitor table,
    [set_header(h)] followed by [header()] returns [h]; with it,
    [set_hash(h)] followed by [hash()] returns [h]; both go through the
    one metadata word.  In a build with [ASSERT] the accessors of the
    other use are assertion failures; in a build without [ASSERT]
    nothing tells the two uses apart and all four accessors succeed
    under either setting. *)
Theorem metadata_header_or_hash
    (ASSERT UseObjectMonitorTable : bool) (st : VM) (hdr : markWord) (h : Z) :
  is_intptr_t h ->
  (UseObjectMonitorTable = false ->
     (bind (set_header ASSERT UseObjectMonitorTable hdr)
           (fun _ => header ASSERT UseObjectMonitorTable)) st
     = Ok (hdr, write_field F_metadata (value hdr) memory_order_relaxed st)) /\
  (UseObjectMonitorTable = true ->
     (bind (set_hash ASSERT UseObjectMonitorTable h)
           (fun _ => hash ASSERT UseObjectMonitorTable)) st
     = Ok (h, write_field F_metadata (to_uintptr_t h) memory_order_relaxed st)) /\
  (ASSERT = true -> UseObjectMonitorTable = false ->
     (exists msg, hash ASSERT UseObjectMonitorTable st = Fatal msg) /\
     (exists msg, set_hash ASSERT UseObjectMonitorTable h st = Fatal msg)) /\
  (ASSERT = true -> UseObjectMonitorTable = true ->
     (exists msg, header ASSERT UseObjectMonitorTable st = Fatal msg) /\
     (exists msg, set_header ASSERT UseObjectMonitorTable hdr st = Fatal msg)) /\
  (ASSERT = false ->
     header ASSERT UseObjectMonitorTable st = Ok ({| value := _metadata (this st) |}, st) /\
     hash ASSERT UseObjectMonitorTable st = Ok (to_intptr_t (_metadata (this st)), st) /\
     set_header ASSERT UseObjectMonitorTable hdr st
     = Ok (tt, write_field F_metadata (value hdr) memory_order_relaxed st) /\
     set_hash ASSERT UseObjectMonitorTable h st
     = Ok (tt, write_field F_metadata (to_uintptr_t h) memory_order_relaxed st)).
Proof.
  intros Hh. repeat apply conj.
  - intros ->. destruct ASSERT, hdr; reflexivity.
  - intros ->.
    assert (E : (bind (set_hash ASSERT true h) (fun _ => hash ASSERT true)) st
                = Ok (to_intptr_t (to_uintptr_t h),
                      write_field F_metadata (to_uintptr_t h) memory_order_relaxed st))
      by (destruct ASSERT; reflexivity).
    rewrite E, (to_intptr_t_to_uintptr_t h Hh). reflexivity.
  - intros -> ->. split; eexists; reflexivity.
  - intros -> ->. split; eexists; reflexivity.
  - intros ->. repeat apply conj; reflexivity.
Qed.

Lemma metadata_header_or_hash_witness :
  is_intptr_t (-5) /\
  (bind (set_hash true true (-5)) (fun _ => hash true true)) idle_vm
  = Ok (-5, write_field F_metadata (to_uintptr_t (-5)) memory_order_relaxed idle_vm) /\
  (exists msg, header true true idle_vm = Fatal msg).
Proof.
  assert (H : is_intptr_t (-5)) by by_computation.
  destruct (metadata_header_or_hash true true idle_vm {| value := 1 |} (-5) H)
    as (_ & R & _ & F & _).
  exact (conj H (conj (R eq_refl) (proj1 (F eq_refl eq_refl)))).
Defined.

(** C6 as stated fails in a build without [ASSERT]: with the table
    off, [hash()] and [set_hash()] return, and with the table on so do
    [header()] and [set_header()]. *)
Lemma metadata_uses_unchecked_without_ASSERT :
  ~ (exists msg, hash false false idle_vm = Fatal msg) /\
  ~ (exists msg, set_hash false false 9 idle_vm = Fatal msg) /\
  ~ (exists msg, header false true idle_vm = Fatal msg) /\
  ~ (exists msg, set_header false true {| value := 9 |} idle_vm = Fatal msg) /\
  hash false false idle_vm = Ok (1, idle_vm) /\
  header false true idle_vm = Ok ({| value := 1 |}, idle_vm).
Proof.
  repeat apply conj; try reflexivity; intros [msg H]; discriminate H.
Qed.

(** ** The weak handle on the object *)

(** C7: [object_peek()] returns null when the handle is null and the
    content of its slot otherwise (null once the referent has been
    collected); [object_is_dead()] is true exactly when [object_peek()]
    returns null; [object_refers_to(obj)] is false when the handle is
    null and otherwise tells whether the peeked referent is [obj]; all
    three leave the state as it was, the monitor and the set of
    referents kept alive included. *)
Theorem weak_handle_queries (st : VM) (obj : oop) :
  object_peek st = Ok (peeked st, st) /\
  (peeked st = nullptr <->
     WeakHandle_is_null (_object (this st)) = true \/
     oop_storage st (_obj (_object (this st))) = nullptr) /\
  (exists dead, object_is_dead st = Ok (dead, st) /\
                (dead = true <-> object_peek st = Ok (nullptr, st))) /\
  (WeakHandle_is_null (_object (this st)) = true ->
     object_refers_to obj st = Ok (false, st)) /\
  (WeakHandle_is_null (_object (this st)) = false ->
     exists r, object_refers_to obj st = Ok (r, st) /\
               (r = true <-> peeked st = obj)).
Proof.
  assert (P : object_peek st = Ok (peeked st, st)).
  { unfold object_peek, peeked, WeakHandle_peek, bind, gets, ret; cbn.
    destruct (WeakHandle_is_null (_object (this st))); reflexivity. }
  split; [| split; [| split; [| split]]].
  - exact P.
  - unfold peeked. destruct (WeakHandle_is_null (_object (this st))).
    + split; [auto | reflexivity].
    + split; [auto | intros [H | H]; [discriminate | exact H]].
  - unfold object_is_dead, bind. rewrite P. unfold ret.
    eexists; split; [reflexivity |].
    rewrite Z.eqb_eq. split; [intros -> | intros H]; [reflexivity |].
    injection H as H. exact H.
  - intros H. unfold object_refers_to, bind, gets, ret; cbn. rewrite H. reflexivity.
  - intros H.
    unfold object_refers_to, peeked, WeakHandle_peek, bind, gets, ret; cbn.
    rewrite H. eexists; split; [reflexivity |]. apply Z.eqb_eq.
Qed.

(** The idle monitor refers to the object in the slot of its handle. *)
Lemma weak_handle_queries_witness :
  WeakHandle_is_null (_object (this idle_vm)) = false /\
  exists r, object_refers_to 8192 idle_vm = Ok (r, idle_vm) /\
            (r = true <-> peeked idle_vm = 8192).
Proof.
  destruct (weak_handle_queries idle_vm 8192) as (_ & _ & _ & _ & R).
  exact (conj eq_refl (R eq_refl)).
Defined.

(** ** Who has entered *)

Lemma is_owner_thread_ok (ASSERT : bool) (thread : JavaThread) (st : VM) :
  thread_ok thread st ->
  exists b, is_owner ASSERT thread st = Ok (b, st) /\
            (b = true <-> _owner (this st) = lock_id thread).
Proof.
  intros H. unfold is_owner, bind, owner, owner_raw, Atomic_load, gets, ret; cbn.
  rewrite (owner_for_thread_ok ASSERT thread st H).
  eexists; split; [reflexivity |].
  destruct H as [[H _] _]. rewrite Z.eqb_eq.
  destruct (Z.eqb_spec (_owner (this st)) DEFLATER_MARKER) as [D | D]; cbn;
    unfold DEFLATER_MARKER, DEFLATER_MARKER_VALUE, nullptr in *; lia.
Qed.



(** ** Owner tokens and the reserved encodings *)

(** C9, as the code has it.  In a build with [ASSERT] every token
    [owner_for(t)] returns is at least 3, hence none of null (0),
    [ANONYMOUS_OWNER] (1) and [DEFLATER_MARKER] (2): a thread whose
    lock id is below 3, or not below [ThreadIdentifier::current()],
    dies on the assertion.  In a build without [ASSERT] the lock id is
    returned unchecked, and the token is one of the reserved encodings
    exactly when the lock id is 0, 1 or 2.  A thread that meets the
    asserted condition gets its lock id in either build.  The three
    reserved encodings are distinct, and [DEFLATER_MARKER] has its
    lowest bit clear and is not taken for the anonymous owner. *)
Theorem owner_for_token_reserved (ASSERT : bool) (t : JavaThread) (st : VM) :
  is_intptr_t (lock_id t) ->
  (ASSERT = true ->
     (forall v st', owner_for ASSERT t st = Ok (v, st') ->
        3 <= v /\ v <> nullptr /\ v <> anon_owner_ptr /\ v <> DEFLATER_MARKER) /\
     (~ (3 <= lock_id t < ThreadIdentifier_current st) ->
        owner_for ASSERT t st = Fatal "must be reasonable")) /\
  (ASSERT = false ->
     owner_for ASSERT t st = Ok (to_uintptr_t (lock_id t), st) /\
     (to_uintptr_t (lock_id t) < 3 <-> 0 <= lock_id t <= 2)) /\
  (thread_ok t st -> owner_for ASSERT t st = Ok (lock_id t, st)) /\
  (nullptr = 0 /\ anon_owner_ptr = 1 /\ DEFLATER_MARKER = 2) /\
  Z.testbit DEFLATER_MARKER_VALUE 0 = false /\
  Z.land DEFLATER_MARKER_VALUE 1 = 0 /\
  (_owner (this st) = DEFLATER_MARKER -> is_owner_anonymous st = Ok (false, st)).
Proof.
  intros Ht.
  split; [| split; [| split; [apply owner_for_thread_ok |
    split; [repeat split | split; [reflexivity | split; [reflexivity |]]]]]].
  - intros ->. split.
    + intros v st' E.
      destruct (owner_for_returns_ge_3 true t st st' v Ht (or_introl eq_refl) E)
        as [G _].
      unfold nullptr, anon_owner_ptr, ANONYMOUS_OWNER, DEFLATER_MARKER,
        DEFLATER_MARKER_VALUE. lia.
    + intros N.
      unfold owner_for, assert, bind, ThreadIdentifier__current, gets, ret; cbn.
      destruct (Z.leb_spec 3 (lock_id t)) as [L | L]; cbn; [| reflexivity].
      destruct (Z.ltb_spec (lock_id t) (ThreadIdentifier_current st)) as [C | C];
        [| reflexivity].
      contradiction N. split; assumption.
  - intros ->. split; [reflexivity |].
    unfold is_intptr_t in Ht. unfold to_uintptr_t, wrap_unsigned.
    change (2 ^ 63) with 9223372036854775808 in Ht.
    change (2 ^ 64) with 18446744073709551616. lia.
  - intros E. unfold is_owner_anonymous, owner_raw, Atomic_load, bind, gets, ret; cbn.
    rewrite E. reflexivity.
Qed.

Lemma owner_for_token_reserved_witness :
  is_intptr_t (lock_id thread5) /\ thread_ok thread5 deflated_vm /\
  owner_for true thread5 deflated_vm = Ok (5, deflated_vm) /\
  owner_for true thread2 deflated_vm = Fatal "must be reasonable" /\
  is_owner_anonymous deflated_vm = Ok (false, deflated_vm).
Proof.
  assert (T : is_intptr_t (lock_id thread5)) by by_computation.
  assert (T2 : is_intptr_t (lock_id thread2)) by by_computation.
  assert (H : thread_ok thread5 deflated_vm) by by_computation.
  assert (N : ~ (3 <= lock_id thread2 < ThreadIdentifier_current deflated_vm)).
  { intros [L _]. apply L. reflexivity. }
  destruct (owner_for_token_reserved true thread5 deflated_vm T)
    as (_ & _ & E & _ & _ & _ & A).
  destruct (owner_for_token_reserved true thread2 deflated_vm T2) as (F & _).
  exact (conj T (conj H (conj (E H) (conj (proj2 (F eq_refl) N) (A eq_refl))))).
Defined.

(** C9 as stated fails in a build without [ASSERT]: for a thread whose
    lock id is 2, [owner_for] returns 2, the encoding of
    [DEFLATER_MARKER]. *)
Lemma owner_for_unchecked_without_ASSERT :
  is_intptr_t (lock_id thread2) /\
  owner_for false thread2 idle_vm = Ok (DEFLATER_MARKER, idle_vm) /\
  ~ (forall v st', owner_for false thread2 idle_vm = Ok (v, st') ->
       3 <= v /\ v <> DEFLATER_MARKER).
Proof.
  split; [by_computation |]. split; [reflexivity |].
  intros H. destruct (H DEFLATER_MARKER idle_vm eq_refl) as [_ N].
  apply N. reflexivity.
Qed.

(** ** The contention mark *)

Lemma to_int_cases (v : Z) :
  INT_MIN - 1 <= v <= INT_MAX + 1 ->
  to_int v = if v <? INT_MIN then INT_MAX
             else if INT_MAX <? v then INT_MIN else v.
Proof.
  intros H.
  destruct (Z.ltb_spec v INT_MIN); [| destruct (Z.ltb_spec INT_MAX v)];
    unfold to_int, wrap_signed, INT_MIN, INT_MAX in *;
    change (2 ^ (32 - 1)) with 2147483648;
    change (2 ^ 31) with 2147483648 in *;
    change (2 ^ 32) with 4294967296; lia.
Qed.

Lemma field_set_contentions_frame (v : Z) (m : ObjectMonitor) :
  same_but_contentions m (field_set F_contentions v m).
Proof. repeat split. Qed.

Lemma field_set_contentions_restore (v : Z) (m : ObjectMonitor) :
  field_set F_contentions (_contentions m) (field_set F_contentions v m) = m.
Proof. destruct m; reflexivity. Qed.

(** C10, as the code has it.  Constructing an
    [ObjectMonitorContentionMark] adds 1 to the contention counter and
    destroying it subtracts 1, in 32-bit arithmetic: a construct then
    destroy cycle returns the counter, and the whole monitor, to where
    it started, for every initial count [c]; while the mark is live no
    field but the counter differs, and the counter is [c + 1], greater
    than [c], for every [c] below [INT_MAX]; from [INT_MAX] it wraps to
    [INT_MIN]. *)
Theorem contention_mark_round_trip (st : VM) :
  is_int (_contentions (this st)) ->
  exists mark st1 st2,
    ObjectMonitorContentionMark_ctor st = Ok (mark, st1) /\
    ObjectMonitorContentionMark_dtor mark st1 = Ok (tt, st2) /\
    _contentions (this st1) = to_int (_contentions (this st) + 1) /\
    (_contentions (this st) < INT_MAX ->
       _contentions (this st1) = _contentions (this st) + 1 /\
       _contentions (this st) < _contentions (this st1) /\
       _contentions (this st2) = _contentions (this st1) - 1) /\
    (_contentions (this st) = INT_MAX -> _contentions (this st1) = INT_MIN) /\
    same_but_contentions (this st) (this st1) /\
    _contentions (this st2) = _contentions (this st) /\
    this st2 = this st.
Proof.
  intros Hc. set (c := _contentions (this st)) in *.
  assert (B : INT_MIN = -2147483648 /\ INT_MAX = 2147483647) by (split; reflexivity).
  destruct B as [Bmin Bmax]. unfold is_int in Hc.
  assert (E1 : to_int (c + 1) = if INT_MAX <? c + 1 then INT_MIN else c + 1).
  { rewrite to_int_cases by lia.
    destruct (Z.ltb_spec (c + 1) INT_MIN); [lia | reflexivity]. }
  assert (E2 : to_int (to_int (c + 1) + -1) = c).
  { rewrite E1.
    destruct (Z.ltb_spec INT_MAX (c + 1)).
    - rewrite to_int_cases by lia.
      destruct (Z.ltb_spec (INT_MIN + -1) INT_MIN); lia.
    - rewrite to_int_cases by lia.
      destruct (Z.ltb_spec (c + 1 + -1) INT_MIN); [lia |].
      destruct (Z.ltb_spec INT_MAX (c + 1 + -1)); lia. }
  exists ContentionMark.
  eexists; eexists.
  split; [reflexivity |]. split; [reflexivity |].
  cbn. fold c.
  split; [reflexivity |].
  split; [| split; [| split; [| split]]].
  - intros L. rewrite E2, E1.
    destruct (Z.ltb_spec INT_MAX (c + 1)); lia.
  - intros L. rewrite E1.
    destruct (Z.ltb_spec INT_MAX (c + 1)); lia.
  - apply field_set_contentions_frame.
  - exact E2.
  - rewrite E2. apply field_set_contentions_restore.
Qed.

(** One contender arrives at the idle monitor and leaves again. *)
Lemma contention_mark_round_trip_witness :
  is_int (_contentions (this idle_vm)) /\
  exists mark st1 st2,
    ObjectMonitorContentionMark_ctor idle_vm = Ok (mark, st1) /\
    ObjectMonitorContentionMark_dtor mark st1 = Ok (tt, st2) /\
    _contentions (this st1) = 1 /\ this st2 = this idle_vm.
Proof.
  assert (H : is_int (_contentions (this idle_vm))) by by_computation.
  split; [exact H |].
  destruct (contention_mark_round_trip idle_vm H)
    as (mark & st1 & st2 & C & D & _ & L & _ & _ & _ & R).
  exists mark, st1, st2.
  refine (conj C (conj D (conj _ R))).
  apply L. reflexivity.
Defined.

(** C10 as stated fails at [INT_MAX]: the counter wraps to [INT_MIN],
    which is neither [INT_MAX + 1] nor greater than [INT_MAX]. *)
Lemma contention_mark_wraps_at_INT_MAX :
  is_int (_contentions (this saturated_vm)) /\
  ~ (forall mark st1,
       ObjectMonitorContentionMark_ctor saturated_vm = Ok (mark, st1) ->
       _contentions (this st1) = _contentions (this saturated_vm) + 1 /\
       _contentions (this saturated_vm) < _contentions (this st1)).
Proof.
  split; [by_computation |].
  intros H.
  destruct (H ContentionMark _ eq_refl) as [E _].
  vm_compute in E. discriminate E.
Qed.

(** * Further properties of the accessors *)

(** ** Ownership queries agree with each other *)

Lemma has_owner_value (st : VM) :
  has_owner st
  = Ok (negb (_owner (this st) =? nullptr)
        && negb (_owner (this st) =? DEFLATER_MARKER), st).
Proof. reflexivity. Qed.

Lemma owner_value (st : VM) :
  owner st
  = Ok (if negb (_owner (this st) =? DEFLATER_MARKER)
        then _owner (this st) else nullptr, st).
Proof. reflexivity. Qed.

Lemma is_entered_not_anonymous
    (ASSERT : bool) (LockingMode : LockingModes) (t : JavaThread) (st : VM) :
  _owner (this st) <> anon_owner_ptr ->
  is_entered ASSERT LockingMode t st = is_owner ASSERT t st.
Proof.
  intros N. unfold is_entered, bind at 1, is_owner_anonymous, bind, owner_raw,
    Atomic_load, gets, ret; cbn.
  destruct (Z.eqb_spec (_owner (this st)) anon_owner_ptr); [contradiction |].
  reflexivity.
Qed.

(** X1: [has_owner()] is true exactly when [owner()] returns a
    non-null value, whatever the owner field holds. *)
Theorem has_owner_iff_owner_nonnull (st : VM) :
  exists (b : bool) (o : address),
    has_owner st = Ok (b, st) /\ owner st = Ok (o, st) /\
    (b = true <-> o <> nullptr).
Proof.
  rewrite has_owner_value, owner_value.
  eexists; eexists; split; [reflexivity |]; split; [reflexivity |].
  destruct (Z.eqb_spec (_owner (this st)) DEFLATER_MARKER) as [D | D]; cbn.
  - rewrite andb_false_r. split; [discriminate | intros H; contradiction H; reflexivity].
  - rewrite andb_true_r.
    destruct (Z.eqb_spec (_owner (this st)) nullptr) as [E | E]; cbn.
    + split; [discriminate | intros H; contradiction].
    + split; [intros _; exact E | reflexivity].
Qed.

(** X2: for a thread with a valid lock id, [is_owner(t)] implies
    [is_entered(t)], and [is_entered(t)] implies [has_owner()]. *)
Theorem is_owner_is_entered_has_owner
    (ASSERT : bool) (LockingMode : LockingModes) (st : VM) (t : JavaThread) :
  thread_ok t st ->
  (is_owner ASSERT t st = Ok (true, st) ->
     is_entered ASSERT LockingMode t st = Ok (true, st)) /\
  (forall st', is_entered ASSERT LockingMode t st = Ok (true, st') ->
     has_owner st = Ok (true, st)).
Proof.
  intros H.
  destruct (is_owner_thread_ok ASSERT t st H) as (b & E & B).
  assert (L : 3 <= lock_id t) by (destruct H as [[L _] _]; exact L).
  split.
  - intros O. rewrite is_entered_not_anonymous; [exact O |].
    rewrite E in O. injection O as ->.
    rewrite (proj1 B eq_refl). unfold anon_owner_ptr, ANONYMOUS_OWNER. lia.
  - intros st' I. rewrite has_owner_value.
    destruct (Z.eq_dec (_owner (this st)) anon_owner_ptr) as [A | A].
    + rewrite A. reflexivity.
    + rewrite (is_entered_not_anonymous ASSERT LockingMode t st A), E in I.
      injection I as -> _.
      rewrite (proj1 B eq_refl).
      destruct (Z.eqb_spec (lock_id t) nullptr) as [Z0 | _];
        [unfold nullptr in Z0; lia |].
      destruct (Z.eqb_spec (lock_id t) DEFLATER_MARKER) as [Z2 | _];
        [unfold DEFLATER_MARKER, DEFLATER_MARKER_VALUE in Z2; lia |].
      reflexivity.
Qed.

Lemma is_owner_is_entered_has_owner_witness :
  thread_ok thread5 owned_vm /\
  is_entered true LM_LEGACY thread5 owned_vm = Ok (true, owned_vm) /\
  has_owner owned_vm = Ok (true, owned_vm).
Proof.
  assert (H : thread_ok thread5 owned_vm) by by_computation.
  destruct (is_owner_is_entered_has_owner true LM_LEGACY owned_vm thread5 H)
    as [E O].
  exact (conj H (conj (E eq_refl) (O owned_vm (E eq_refl)))).
Defined.

(** X3: a monitor that has an owner is busy: [is_busy()] never offers
    an owned monitor for deflation, whatever the queues and counters
    hold. *)
Theorem has_owner_is_busy (st : VM) :
  monitor_ok (this st) ->
  has_owner st = Ok (true, st) ->
  is_busy st = Ok (true, st).
Proof.
  intros (_ & Ho & _) H. rewrite has_owner_value in H.
  injection H as H. apply andb_true_iff in H. destruct H as [H0 H2].
  apply negb_true_iff in H0, H2.
  unfold is_busy, bind, gets, ret, contentions, owner_is_DEFLATER_MARKER,
    owner_raw, Atomic_load; cbn.
  rewrite H2; cbn.
  match goal with
  | |- Ok (negb (?r =? 0), _) = _ => destruct (Z.eqb_spec r 0) as [R | R]
  end; [| reflexivity].
  apply lor_zero_iff in R. destruct R as [_ R].
  apply (to_intptr_t_zero_iff _ Ho) in R.
  apply Z.eqb_neq in H0. contradiction.
Qed.

Lemma has_owner_is_busy_witness :
  monitor_ok (this anonymous_vm) /\ is_busy anonymous_vm = Ok (true, anonymous_vm).
Proof.
  assert (H : monitor_ok (this anonymous_vm)) by by_computation.
  exact (conj H (has_owner_is_busy anonymous_vm H eq_refl)).
Defined.

(** X4: two threads with valid lock ids that both see themselves as
    owner through [is_owner] carry the same lock id. *)
Theorem is_owner_exclusive (ASSERT : bool) (st : VM) (t1 t2 : JavaThread) :
  thread_ok t1 st -> thread_ok t2 st ->
  is_owner ASSERT t1 st = Ok (true, st) ->
  is_owner ASSERT t2 st = Ok (true, st) ->
  lock_id t1 = lock_id t2.
Proof.
  intros H1 H2 O1 O2.
  destruct (is_owner_thread_ok ASSERT t1 st H1) as (b1 & E1 & B1).
  destruct (is_owner_thread_ok ASSERT t2 st H2) as (b2 & E2 & B2).
  rewrite E1 in O1. rewrite E2 in O2.
  injection O1 as ->. injection O2 as ->.
  rewrite <- (proj1 B1 eq_refl). apply B2. reflexivity.
Qed.

Lemma is_owner_exclusive_witness :
  thread_ok thread5 owned_vm /\
  is_owner true thread5 owned_vm = Ok (true, owned_vm) /\
  lock_id thread5 = lock_id thread5.
Proof.
  assert (H : thread_ok thread5 owned_vm) by by_computation.
  exact (conj H (conj eq_refl
           (is_owner_exclusive true owned_vm thread5 thread5 H H eq_refl eq_refl))).
Defined.

(** ** Taking and giving up the owner field *)










(** ** From the lightweight lock to the monitor *)






(** ** The expected value of a compare-and-swap *)

(** X9: a compare-and-swap whose expected value was read with
    [owner_raw()] succeeds on every monitor, the one the deflater has
    marked included; one whose expected value was read with [owner()]
    fails exactly on the marked monitor, where [owner()] reports null
    and the field holds [DEFLATER_MARKER]. *)
Theorem cmpxchg_expects_owner_raw (ASSERT : bool) (st : VM) (new_value : address) :
  ASSERT = false \/ reasonable new_value st ->
  (p <- owner_raw ;; try_set_owner_from_raw ASSERT p new_value) st
  = Ok (_owner (this st), write_field F_owner new_value memory_order_conservative st) /\
  (_owner (this st) <> DEFLATER_MARKER ->
     (p <- owner ;; try_set_owner_from_raw ASSERT p new_value) st
     = Ok (_owner (this st),
           write_field F_owner new_value memory_order_conservative st)) /\
  (_owner (this st) = DEFLATER_MARKER ->
     (p <- owner ;; try_set_owner_from_raw ASSERT p new_value) st
     = Ok (DEFLATER_MARKER, st)).
Proof.
  intros H.
  assert (R : forall p, try_set_owner_from_raw ASSERT p new_value st
                        = Atomic_cmpxchg F_owner p new_value st).
  { intros p. unfold try_set_owner_from_raw, bind.
    rewrite (assert_reasonable ASSERT new_value _ st H).
    unfold Atomic_cmpxchg, ret.
    destruct (field_get F_owner (this st) =? p); reflexivity. }
  split; [| split].
  - unfold bind at 1, owner_raw, Atomic_load, gets. rewrite R.
    unfold Atomic_cmpxchg; cbn. rewrite Z.eqb_refl. reflexivity.
  - intros N. unfold bind at 1. rewrite owner_value.
    apply Z.eqb_neq in N. rewrite N; cbn. rewrite R.
    unfold Atomic_cmpxchg; cbn. rewrite Z.eqb_refl. reflexivity.
  - intros E. unfold bind at 1. rewrite owner_value.
    rewrite E; cbn. rewrite R.
    unfold Atomic_cmpxchg; cbn. rewrite E. reflexivity.
Qed.

Lemma cmpxchg_expects_owner_raw_witness :
  reasonable 7 deflated_vm /\
  (p <- owner ;; try_set_owner_from_raw true p 7) deflated_vm
  = Ok (DEFLATER_MARKER, deflated_vm) /\
  (p <- owner_raw ;; try_set_owner_from_raw true p 7) deflated_vm
  = Ok (DEFLATER_MARKER, write_field F_owner 7 memory_order_conservative deflated_vm).
Proof.
  assert (H : reasonable 7 deflated_vm) by by_computation.
  destruct (cmpxchg_expects_owner_raw true deflated_vm 7 (or_intror H))
    as (A & _ & B).
  exact (conj H (conj (B eq_refl) A)).
Defined.

(** ** Arithmetic of the contention counter *)

Lemma to_int_idem_add (x y : Z) : to_int (to_int x + y) = to_int (x + y).
Proof.
  unfold to_int, wrap_signed.
  change (2 ^ (32 - 1)) with 2147483648.
  change (2 ^ 32) with 4294967296. lia.
Qed.

Lemma to_int_is_int (x : Z) : is_int (to_int x).
Proof.
  unfold is_int, INT_MIN, INT_MAX, to_int, wrap_signed.
  change (2 ^ (32 - 1)) with 2147483648.
  change (2 ^ 31) with 2147483648.
  change (2 ^ 32) with 4294967296. lia.
Qed.

Lemma to_int_of_int (x : Z) : is_int x -> to_int x = x.
Proof.
  unfold is_int, INT_MIN, INT_MAX, to_int, wrap_signed.
  change (2 ^ (32 - 1)) with 2147483648.
  change (2 ^ 31) with 2147483648.
  change (2 ^ 32) with 4294967296. lia.
Qed.

Lemma add_to_contentions_value (v : Z) (st : VM) :
  add_to_contentions v st
  = Ok (tt, write_field F_contentions (to_int (_contentions (this st) + v))
              memory_order_conservative st).
Proof. reflexivity. Qed.

(** X10: [add_to_contentions(a)] writes the counter plus [a], reduced
    modulo 2^32 to the range of [int], and touches no other field; it
    is that sum itself whenever the sum is an [int].  Two calls in a
    row leave the monitor as one call with the sum would, and adding
    [a] and then [-a] gives back the monitor one started from. *)
Theorem add_to_contentions_additive (st : VM) (a b : Z) :
  is_int (_contentions (this st)) ->
  exists st1 st2 st3,
    add_to_contentions a st = Ok (tt, st1) /\
    st1 = write_field F_contentions (to_int (_contentions (this st) + a))
            memory_order_conservative st /\
    _contentions (this st1) = to_int (_contentions (this st) + a) /\
    (is_int (_contentions (this st) + a) ->
       _contentions (this st1) = _contentions (this st) + a) /\
    same_but_contentions (this st) (this st1) /\
    add_to_contentions b st1 = Ok (tt, st2) /\
    _contentions (this st2) = to_int (_contentions (this st) + a + b) /\
    add_to_contentions (a + b) st = Ok (tt, st3) /\
    this st2 = this st3 /\
    is_int (_contentions (this st2)) /\
    (b = - a -> this st2 = this st).
Proof.
  intros Hc.
  rewrite !add_to_contentions_value.
  eexists; eexists; eexists.
  split; [reflexivity |]. split; [reflexivity |]. split; [reflexivity |].
  split; [intros I; cbn; apply (to_int_of_int _ I) |].
  split; [apply field_set_contentions_frame |].
  rewrite add_to_contentions_value.
  split; [reflexivity |].
  cbn. rewrite to_int_idem_add.
  split; [reflexivity |]. split; [reflexivity |].
  rewrite Z.add_assoc.
  split; [reflexivity |]. split; [apply to_int_is_int |].
  intros ->. replace (_contentions (this st) + a + - a) with (_contentions (this st)) by lia.
  rewrite (to_int_of_int _ Hc).
  destruct (this st); reflexivity.
Qed.

Lemma add_to_contentions_additive_witness :
  is_int (_contentions (this saturated_vm)) /\
  exists st1 st2,
    add_to_contentions 1 saturated_vm = Ok (tt, st1) /\
    _contentions (this st1) = INT_MIN /\
    add_to_contentions (-1) st1 = Ok (tt, st2) /\
    this st2 = this saturated_vm.
Proof.
  assert (H : is_int (_contentions (this saturated_vm))) by by_computation.
  split; [exact H |].
  destruct (add_to_contentions_additive saturated_vm 1 (-1) H)
    as (st1 & st2 & st3 & A & _ & V & _ & _ & B & _ & _ & _ & _ & R).
  exists st1, st2.
  refine (conj A (conj _ (conj B (R eq_refl)))).
  rewrite V. reflexivity.
Defined.

(** X11: contention marks held by scopes nested to any depth give the
    monitor back as it was once the outermost scope is left, after two
    writes to the counter for each scope. *)
Theorem nested_contention_marks_restore (depth : nat) (st : VM) :
  is_int (_contentions (this st)) ->
  exists st',
    nested_contention_marks depth st = Ok (tt, st') /\
    this st' = this st /\
    List.length (mem_log st') = (2 * depth + List.length (mem_log st))%nat.
Proof.
  revert st. induction depth as [| depth IH]; intros st Hc.
  - exists st. repeat split.
  - cbn [nested_contention_marks].
    unfold ObjectMonitorContentionMark_ctor, ObjectMonitorContentionMark_dtor,
      bind at 1 2.
    rewrite add_to_contentions_value. unfold ret at 1.
    set (st1 := write_field F_contentions (to_int (_contentions (this st) + 1))
                  memory_order_conservative st).
    destruct (IH st1) as (st2 & E2 & T2 & L2); [apply to_int_is_int |].
    unfold bind. rewrite E2, add_to_contentions_value.
    eexists. split; [reflexivity |]. split.
    + cbn. rewrite T2. cbn.
      rewrite to_int_idem_add.
      replace (_contentions (this st) + 1 + -1) with (_contentions (this st)) by lia.
      rewrite (to_int_of_int _ Hc). destruct (this st); reflexivity.
    + cbn [mem_log write_field List.length]. rewrite L2. subst st1.
      cbn [mem_log write_field List.length]. lia.
Qed.

Lemma nested_contention_marks_restore_witness :
  is_int (_contentions (this deflating_vm)) /\
  exists st',
    nested_contention_marks 3 deflating_vm = Ok (tt, st') /\
    this st' = this deflating_vm.
Proof.
  assert (H : is_int (_contentions (this deflating_vm))) by by_computation.
  split; [exact H |].
  destruct (nested_contention_marks_restore 3 deflating_vm H) as (st' & E & T & _).
  exists st'. exact (conj E T).
Defined.

(** X12: while a contention mark is live on a monitor whose counter
    was not negative, [is_busy()] is true and
    [is_being_async_deflated()] is false, whatever the owner and the
    queues are. *)
Theorem live_mark_keeps_monitor_busy (st : VM) :
  monitor_ok (this st) ->
  0 <= _contentions (this st) < INT_MAX ->
  exists mark st1,
    ObjectMonitorContentionMark_ctor st = Ok (mark, st1) /\
    is_busy st1 = Ok (true, st1) /\
    is_being_async_deflated st1 = Ok (false, st1).
Proof.
  intros (_ & _ & _ & _ & _ & Hn) Hc.
  assert (B : INT_MIN = -2147483648 /\ INT_MAX = 2147483647) by (split; reflexivity).
  destruct B as [Bmin Bmax].
  assert (I1 : is_int (_contentions (this st) + 1)) by (unfold is_int; lia).
  exists ContentionMark. eexists. split; [reflexivity |].
  unfold is_busy, is_being_async_deflated, bind, gets, ret, contentions,
    owner_is_DEFLATER_MARKER, owner_raw, Atomic_load; cbn.
  rewrite (to_int_of_int _ I1).
  rewrite (to_intptr_t_of_int _ I1).
  destruct (Z.ltb_spec 0 (_contentions (this st) + 1)) as [P | P]; [| lia].
  split.
  - destruct (_owner (this st) =? DEFLATER_MARKER); cbn;
      match goal with
      | |- Ok (negb (?r =? 0), _) = _ => destruct (Z.eqb_spec r 0) as [R | R]
      end; try reflexivity; rewrite ?lor_zero_iff in R; lia.
  - destruct (Z.ltb_spec (_contentions (this st) + 1) 0); [lia | reflexivity].
Qed.

Lemma live_mark_keeps_monitor_busy_witness :
  monitor_ok (this idle_vm) /\ 0 <= _contentions (this idle_vm) < INT_MAX /\
  exists mark st1,
    ObjectMonitorContentionMark_ctor idle_vm = Ok (mark, st1) /\
    is_busy st1 = Ok (true, st1).
Proof.
  assert (H : monitor_ok (this idle_vm)) by by_computation.
  assert (C : 0 <= _contentions (this idle_vm) < INT_MAX) by by_computation.
  split; [exact H |]. split; [exact C |].
  destruct (live_mark_keeps_monitor_busy idle_vm H C) as (mark & st1 & A & B & _).
  exists mark, st1. exact (conj A B).
Defined.

(** ** What a thread can install as owner *)

(** X13: whatever [try_set_owner_from(old_value, t)] and
    [set_owner_from(old_value, t)] store is a token of at least 3:
    under [ASSERT], or for a thread with a valid lock id, neither ever
    installs null, [ANONYMOUS_OWNER] or [DEFLATER_MARKER], and a
    [try_set_owner_from] that stores nothing leaves the state alone. *)
Theorem owner_installed_by_thread_ge_3
    (ASSERT : bool) (st : VM) (old_value : address) (t : JavaThread) :
  is_intptr_t (lock_id t) ->
  ASSERT = true \/ thread_ok t st ->
  (forall p st', try_set_owner_from ASSERT old_value t st = Ok (p, st') ->
     p = _owner (this st) /\
     ((p <> old_value /\ st' = st) \/ (p = old_value /\ 3 <= _owner (this st')))) /\
  (forall st', set_owner_from ASSERT old_value t st = Ok (tt, st') ->
     3 <= _owner (this st')).
Proof.
  intros Ht Hc. split.
  - intros p st' E. unfold try_set_owner_from, bind in E.
    destruct (owner_for ASSERT t st) as [[v st1] | msg] eqn:F; [| discriminate E].
    destruct (owner_for_returns_ge_3 ASSERT t st st1 v Ht Hc F) as [G ->].
    unfold try_set_owner_from_raw, bind in E.
    destruct (assert ASSERT _ _ st) as [[[] st2] | msg] eqn:A; [| discriminate E].
    assert (st2 = st) as ->.
    { unfold assert, bind, ThreadIdentifier__current, gets, ret in A.
      destruct ASSERT; [| injection A as <-; reflexivity].
      cbn in A. destruct (to_intptr_t v <? ThreadIdentifier_current st);
        [injection A as <-; reflexivity | discriminate A]. }
    unfold Atomic_cmpxchg, ret in E; cbn in E.
    destruct (Z.eqb_spec (_owner (this st)) old_value) as [Eo | No];
      injection E as <- <-; (split; [reflexivity |]).
    + right. split; [exact Eo | exact G].
    + left. split; [exact No | reflexivity].
  - intros st' E. unfold set_owner_from, bind in E.
    destruct (owner_for ASSERT t st) as [[v st1] | msg] eqn:F; [| discriminate E].
    destruct (owner_for_returns_ge_3 ASSERT t st st1 v Ht Hc F) as [G ->].
    unfold set_owner_from_raw, bind in E.
    destruct (ifdef_ASSERT ASSERT _ st) as [[[] st2] | msg]; [| discriminate E].
    unfold Atomic_store, modify in E. injection E as <-. exact G.
Qed.

Lemma owner_installed_by_thread_ge_3_witness :
  is_intptr_t (lock_id thread7) /\
  exists st', set_owner_from true nullptr thread7 idle_vm = Ok (tt, st') /\
              3 <= _owner (this st').
Proof.
  assert (T : is_intptr_t (lock_id thread7)) by by_computation.
  split; [exact T |].
  destruct (owner_installed_by_thread_ge_3 true idle_vm nullptr thread7 T
              (or_introl eq_refl)) as [_ S].
  eexists. split; [reflexivity |]. apply S. reflexivity.
Defined.

(** ** Stack locking and ownership *)

(** X14: outside [LM_LIGHTWEIGHT], for a thread with a valid lock id,
    [is_entered(t)] is the disjunction of [is_stack_locker(t)] and
    [is_owner(t)], and the two are never true together. *)
Theorem is_entered_stack_locker_or_owner
    (ASSERT : bool) (LockingMode : LockingModes) (st : VM) (t : JavaThread) :
  thread_ok t st -> LockingMode <> LM_LIGHTWEIGHT ->
  exists e l o : bool,
    is_entered ASSERT LockingMode t st = Ok (e, st) /\
    is_stack_locker t st = Ok (l, st) /\
    is_owner ASSERT t st = Ok (o, st) /\
    e = l || o /\ l && o = false.
Proof.
  intros H N.
  destruct (is_owner_thread_ok ASSERT t st H) as (o & Eo & B).
  assert (L : 3 <= lock_id t) by (destruct H as [[L _] _]; exact L).
  destruct (Z.eq_dec (_owner (this st)) anon_owner_ptr) as [A | A].
  - assert (O : o = false).
    { destruct o; [| reflexivity]. rewrite (proj1 B eq_refl) in A.
      unfold anon_owner_ptr, ANONYMOUS_OWNER in A. lia. }
    subst o.
    exists (is_lock_owned t (_stack_locker (this st))),
           (is_lock_owned t (_stack_locker (this st))), false.
    split; [| split; [| split; [exact Eo | split]]].
    + unfold is_entered, is_owner_anonymous, stack_locker, owner_raw, Atomic_load,
        bind, gets, ret; cbn.
      rewrite A; cbn. destruct LockingMode; try reflexivity. contradiction.
    + unfold is_stack_locker, is_owner_anonymous, stack_locker, owner_raw,
        Atomic_load, bind, gets, ret; cbn.
      rewrite A. reflexivity.
    + rewrite orb_false_r. reflexivity.
    + apply andb_false_r.
  - exists o, false, o.
    split; [| split; [| split; [exact Eo | split; reflexivity]]].
    + rewrite (is_entered_not_anonymous ASSERT LockingMode t st A). exact Eo.
    + unfold is_stack_locker, is_owner_anonymous, owner_raw, Atomic_load,
        bind, gets, ret; cbn.
      destruct (Z.eqb_spec (_owner (this st)) anon_owner_ptr);
        [contradiction | reflexivity].
Qed.

Lemma is_entered_stack_locker_or_owner_witness :
  thread_ok thread5 anonymous_vm /\ LM_LEGACY <> LM_LIGHTWEIGHT /\
  exists e l o : bool,
    is_entered true LM_LEGACY thread5 anonymous_vm = Ok (e, anonymous_vm) /\
    is_stack_locker thread5 anonymous_vm = Ok (l, anonymous_vm) /\
    is_owner true thread5 anonymous_vm = Ok (o, anonymous_vm) /\
    e = l || o /\ l && o = false.
Proof.
  assert (H : thread_ok thread5 anonymous_vm) by by_computation.
  assert (N : LM_LEGACY <> LM_LIGHTWEIGHT) by discriminate.
  exact (conj H (conj N
           (is_entered_stack_locker_or_owner true LM_LEGACY anonymous_vm thread5 H N))).
Defined.

(** ** The deflation flag and the owner field *)



